(** * A shallow embedding of [src/lambda_function.py]

    The module is an API-Gateway Lambda proxy in front of Amazon Bedrock:
    [validate_request] checks the incoming event, [invoke_bedrock_model]
    shapes one request body per model family, calls the Bedrock runtime
    once and parses the answer, and [handler] wraps everything in a
    response envelope built by [create_response].

    Python values that flow through the code are JSON values (the event,
    the decoded request body, the decoded model response), so the data
    model is a JSON value type with Python's truthiness, [in], indexing
    and [dict.get] written out, together with the exceptions they raise.
    The Python library functions the code calls ([json.loads], [str] of a
    dict, the Bedrock client's [invoke_model] and the clock) are
    parameters of the development. *)

From Stdlib Require Import String Ascii List ZArith QArith Bool Lia.
Import ListNotations.
Open Scope string_scope.
Open Scope Z_scope.
#[local] Set Warnings "-register-all".

(** ** Python floats

    A finite double is represented by its exact rational value; the three
    non-finite doubles that Python's [json.loads] accepts are separate. *)
Inductive pyfloat :=
| Fin (q : Q)
| PosInf
| NegInf
| NaN.

(** ** JSON values as Python sees them after [json.loads]

    [JNull] is Python's [None]; a JSON object is a [dict], kept as an
    association list whose first binding of a key is the one seen. *)
Inductive json :=
| JNull
| JBool (b : bool)
| JInt (z : Z)
| JFloat (f : pyfloat)
| JStr (s : string)
| JList (l : list json)
| JObj (kv : list (string * json)).

Fixpoint assoc {A} (k : string) (kv : list (string * A)) : option A :=
  match kv with
  | [] => None
  | (k', v) :: kv' => if String.eqb k k' then Some v else assoc k kv'
  end.

(** [bool(v)] *)
Definition truthy (v : json) : bool :=
  match v with
  | JNull => false
  | JBool b => b
  | JInt z => negb (Z.eqb z 0)
  | JFloat (Fin q) => negb (Qeq_bool q 0)
  | JFloat _ => true
  | JStr s => negb (String.eqb s EmptyString)
  | JList l => match l with [] => false | _ => true end
  | JObj kv => match kv with [] => false | _ => true end
  end.

(** [v == s] for a string literal [s]: only a [str] equal to it. *)
Definition py_eq_str (s : string) (v : json) : bool :=
  match v with
  | JStr t => String.eqb s t
  | _ => false
  end.

Fixpoint str_startswith (p s : string) : bool :=
  match p, s with
  | EmptyString, _ => true
  | String a p', String b s' => Ascii.eqb a b && str_startswith p' s'
  | String _ _, EmptyString => false
  end.

(** [needle in hay] on two [str]s: substring test. *)
Fixpoint str_contains (needle hay : string) : bool :=
  str_startswith needle hay ||
  match hay with
  | EmptyString => false
  | String _ hay' => str_contains needle hay'
  end.

(** ** Exceptions and the error monad *)
Inductive exn :=
| JSONDecodeError
| TypeError
| KeyError
| IndexError
| AttributeError
| ClientError (code message : string)   (* botocore.exceptions.ClientError *)
| BotoCoreError (message : string)       (* botocore.exceptions.BotoCoreError *)
| OtherError (message : string).

Inductive result (A : Type) :=
| Ok (a : A)
| Exc (e : exn).
Arguments Ok {A} a.
Arguments Exc {A} e.

Definition ret {A} (a : A) : result A := Ok a.

Definition bind {A B} (m : result A) (k : A -> result B) : result B :=
  match m with Ok a => k a | Exc e => Exc e end.

Notation "x <- c1 ;; c2" := (bind c1 (fun x => c2))
  (at level 61, c1 at next level, right associativity).

(** ** Python operations on JSON values *)

(** [k in o] for a string [k]. *)
Definition py_contains (k : string) (o : json) : result bool :=
  match o with
  | JObj kv => Ok (match assoc k kv with Some _ => true | None => false end)
  | JList l => Ok (existsb (py_eq_str k) l)
  | JStr s => Ok (str_contains k s)
  | _ => Exc TypeError
  end.

(** An integer usable as a sequence index ([bool] is an [int]). *)
Definition py_index_of (k : json) : option Z :=
  match k with
  | JInt i => Some i
  | JBool b => Some (Z.b2z b)
  | _ => None
  end.

(** [s[i]] on a sequence of length [n], negative indices from the end. *)
Definition py_norm_index (n i : Z) : option nat :=
  if (0 <=? i) && (i <? n) then Some (Z.to_nat i)
  else if (- n <=? i) && (i <? 0) then Some (Z.to_nat (n + i))
  else None.

(** [o[k]] *)
Definition py_getitem (o k : json) : result json :=
  match o with
  | JObj kv =>
      match k with
      | JStr s => match assoc s kv with Some v => Ok v | None => Exc KeyError end
      | JList _ | JObj _ => Exc TypeError          (* unhashable key *)
      | _ => Exc KeyError                          (* keys are all str *)
      end
  | JList l =>
      match py_index_of k with
      | Some i =>
          match py_norm_index (Z.of_nat (length l)) i with
          | Some n => match nth_error l n with Some v => Ok v | None => Exc IndexError end
          | None => Exc IndexError
          end
      | None => Exc TypeError
      end
  | JStr s =>
      match py_index_of k with
      | Some i =>
          match py_norm_index (Z.of_nat (String.length s)) i with
          | Some n => match String.get n s with
                      | Some c => Ok (JStr (String c EmptyString))
                      | None => Exc IndexError
                      end
          | None => Exc IndexError
          end
      | None => Exc TypeError
      end
  | _ => Exc TypeError
  end.

(** [o.get(k, d)]: only a [dict] has [.get]. *)
Definition py_dict_get (o : json) (k : string) (d : json) : result json :=
  match o with
  | JObj kv => Ok (match assoc k kv with Some v => v | None => d end)
  | _ => Exc AttributeError
  end.

(** [isinstance(v, int)] *)
Definition py_isinstance_int (v : json) : bool :=
  match v with JBool _ | JInt _ => true | _ => false end.

(** [isinstance(v, (int, float))] *)
Definition py_isinstance_num (v : json) : bool :=
  match v with JBool _ | JInt _ | JFloat _ => true | _ => false end.

(** [v < 1] for an [int] (or [bool]) [v]. *)
Definition py_lt_one (v : json) : bool :=
  match v with
  | JBool b => Z.b2z b <? 1
  | JInt z => z <? 1
  | _ => false
  end.

(** [0 <= v <= 1] for a number [v]; every comparison with NaN is false. *)
Definition py_between_0_1 (v : json) : bool :=
  match v with
  | JBool _ => true
  | JInt z => (0 <=? z) && (z <=? 1)
  | JFloat (Fin q) => Qle_bool 0 q && Qle_bool q 1
  | _ => false
  end.

(** The Lambda event: a [dict] decoded from the API Gateway JSON. *)
Definition event := list (string * json).

(** [event.get(k)] *)
Definition ev_get (ev : event) (k : string) : json :=
  match assoc k ev with Some v => v | None => JNull end.

(** [x or d] *)
Definition py_or (x d : json) : json := if truthy x then x else d.

(** ** The state of a request: the calls made to the Bedrock runtime

    [PyM] is the error monad extended with the log of the
    [bedrock_client.invoke_model] calls made so far (model id and request
    body of each), so that a theorem can say whether a remote call
    happened. *)
Definition call := (string * json)%type.

Definition PyM (A : Type) := list call -> result A * list call.

Definition pret {A} (a : A) : PyM A := fun log => (Ok a, log).

Definition pbind {A B} (m : PyM A) (k : A -> PyM B) : PyM B := fun log =>
  match m log with
  | (Ok a, log') => k a log'
  | (Exc e, log') => (Exc e, log')
  end.

Notation "x <~ c1 ;; c2" := (pbind c1 (fun x => c2))
  (at level 61, c1 at next level, right associativity).

(** A pure step that may raise. *)
Definition lift {A} (r : result A) : PyM A := fun log => (r, log).

(** [try: m except e: h(e)] *)
Definition py_try {A} (m : PyM A) (h : exn -> PyM A) : PyM A := fun log =>
  match m log with
  | (Ok a, log') => (Ok a, log')
  | (Exc e, log') => h e log'
  end.

(** ** Data of the Invoker and the Handler *)

(** The module-level configuration read from the environment at import. *)
Record config := {
  BEDROCK_MODEL_ID : string;
  MAX_TOKENS : Z;
  TEMPERATURE : pyfloat;
  TOP_P : pyfloat
}.

(** What [bedrock_client.invoke_model] returns: the payload of
    [response['body'].read()] and [response.get('ResponseMetadata')]. *)
Record remote_response := {
  resp_body : string;
  resp_metadata : option json
}.

(** The dict returned by [invoke_bedrock_model]. *)
Inductive invocation :=
| InvOk (content : json) (model_id : string) (usage : json) (request_id : json)
| InvErr (code message : string).

(** The API Gateway response built by [create_response]; [body] is the
    value that [json.dumps] serialises. *)
Record envelope := {
  statusCode : Z;
  headers : list (string * string);
  body : json
}.

Fixpoint dict_set (k : string) (v : string) (d : list (string * string))
  : list (string * string) :=
  match d with
  | [] => [(k, v)]
  | (k', v') :: d' => if String.eqb k k' then (k, v) :: d' else (k', v') :: dict_set k v d'
  end.

(** [d.update(h)] *)
Definition dict_update (d h : list (string * string)) : list (string * string) :=
  fold_left (fun acc kv => dict_set (fst kv) (snd kv) acc) h d.

Definition default_headers : list (string * string) :=
  [("Content-Type", "application/json");
   ("Access-Control-Allow-Origin", "*");
   ("Access-Control-Allow-Headers",
      "Content-Type,X-Amz-Date,Authorization,X-Api-Key,X-Amz-Security-Token");
   ("Access-Control-Allow-Methods", "GET,POST,OPTIONS")].

Definition create_response (status_code : Z) (body : json)
  (headers : option (list (string * string))) : envelope :=
  {| statusCode := status_code;
     headers := match headers with
                | Some ((_ :: _) as h) => dict_update default_headers h
                | _ => default_headers
                end;
     body := body |}.

(** ** Sample inputs

    Concrete documents, JSON texts and configurations used to evaluate the
    code on explicit inputs. *)

Definition dq : string := String (Ascii.ascii_of_nat 34) EmptyString.
Definition quoted (s : string) : string := dq ++ s ++ dq.

(** The module's configuration with the environment unset: the default
    model id and [int('1000')], [float('0.7')], [float('0.9')] (the exact
    values of these doubles). *)
Definition default_config : config :=
  {| BEDROCK_MODEL_ID := "anthropic.claude-3-sonnet-20240229-v1:0";
     MAX_TOKENS := 1000;
     TEMPERATURE := Fin (3152519739159347 # 4503599627370496);
     TOP_P := Fin (8106479329266893 # 9007199254740992) |}.

Definition generic_config : config :=
  {| BEDROCK_MODEL_ID := "some.other.model";
     MAX_TOKENS := 1000;
     TEMPERATURE := Fin (3152519739159347 # 4503599627370496);
     TOP_P := Fin (8106479329266893 # 9007199254740992) |}.

(** JSON texts and what [json.loads] makes of them. *)
Definition sample_documents : list (string * json) :=
  [("{" ++ quoted "prompt" ++ ": " ++ quoted "hi" ++ ", " ++ quoted "temperature" ++ ": 0.0}",
      JObj [("prompt", JStr "hi"); ("temperature", JFloat (Fin 0))]);
   ("{" ++ quoted "prompt" ++ ": " ++ quoted "hi" ++ ", " ++ quoted "max_tokens" ++ ": true}",
      JObj [("prompt", JStr "hi"); ("max_tokens", JBool true)]);
   ("{" ++ quoted "prompt" ++ ": " ++ quoted EmptyString ++ "}",
      JObj [("prompt", JStr EmptyString)]);
   ("{}", JObj []);
   ("[" ++ quoted "prompt" ++ "]", JList [JStr "prompt"]);
   ("{" ++ quoted "text" ++ ": " ++ quoted "fallback reply" ++ "}",
      JObj [("text", JStr "fallback reply")]);
   ("{" ++ quoted "content" ++ ": [{" ++ quoted "text" ++ ": " ++ quoted "hello" ++ "}]}",
      JObj [("content", JList [JObj [("text", JStr "hello")]])])].

(** [json.loads] on the sample texts; any other text is rejected. *)
Definition sample_json_loads (s : string) : option json := assoc s sample_documents.

Definition post_event (text : string) : event :=
  [("httpMethod", JStr "POST"); ("body", JStr text)].

Definition temperature_zero_text : string :=
  "{" ++ quoted "prompt" ++ ": " ++ quoted "hi" ++ ", " ++ quoted "temperature" ++ ": 0.0}".

Definition max_tokens_true_text : string :=
  "{" ++ quoted "prompt" ++ ": " ++ quoted "hi" ++ ", " ++ quoted "max_tokens" ++ ": true}".

Definition empty_prompt_text : string :=
  "{" ++ quoted "prompt" ++ ": " ++ quoted EmptyString ++ "}".

(** [str()] of a decoded answer, for the samples (where it is not used). *)
Definition sample_repr (v : json) : string := "{...}".

(** A Bedrock runtime answering every call with an Anthropic-shaped body. *)
Definition remote_anthropic (model_id : string) (payload : json) : result remote_response :=
  Ok {| resp_body := "{" ++ quoted "content" ++ ": [{" ++ quoted "text" ++ ": "
                       ++ quoted "hello" ++ "}]}";
        resp_metadata := Some (JObj [("RequestId", JStr "req-1")]) |}.

(** A Bedrock runtime answering every call with [{"text": "fallback reply"}]. *)
Definition remote_fallback (model_id : string) (payload : json) : result remote_response :=
  Ok {| resp_body := "{" ++ quoted "text" ++ ": " ++ quoted "fallback reply" ++ "}";
        resp_metadata := Some (JObj [("RequestId", JStr "req-2")]) |}.

Definition endpoint_message : string :=
  "Could not connect to the endpoint URL: "
  ++ quoted "https://bedrock-runtime.us-east-1.amazonaws.com/model/anthropic.claude-3-sonnet-20240229-v1:0/invoke".

(** A Bedrock runtime that cannot be reached. *)
Definition remote_unreachable (model_id : string) (payload : json) : result remote_response :=
  Exc (BotoCoreError endpoint_message).

(** The field checks of [validate_request], one field at a time. *)
Definition valid_max_tokens (v : json) : bool :=
  py_isinstance_int v && negb (py_lt_one v).

Definition valid_unit (v : json) : bool :=
  py_isinstance_num v && py_between_0_1 v.

(** An absent field passes; a present one must satisfy [ok]. *)
Definition field_ok (kv : list (string * json)) (k : string) (ok : json -> bool) : bool :=
  match assoc k kv with None => true | Some v => ok v end.

(** [d.get(k)] on a [dict] [d]: [None] for a missing key. *)
Definition get_or_none (kv : list (string * json)) (k : string) : json :=
  match assoc k kv with Some v => v | None => JNull end.

Definition titan_config : config :=
  {| BEDROCK_MODEL_ID := "amazon.titan-text-express-v1";
     MAX_TOKENS := 1000;
     TEMPERATURE := Fin (3152519739159347 # 4503599627370496);
     TOP_P := Fin (8106479329266893 # 9007199254740992) |}.

(** More JSON texts, for the properties beyond the claims. *)
Definition more_documents : list (string * json) :=
  [("{" ++ quoted "prompt" ++ ": " ++ quoted "hi" ++ "}", JObj [("prompt", JStr "hi")]);
   ("{" ++ quoted "prompt" ++ ": " ++ quoted "hi" ++ ", " ++ quoted "max_tokens" ++ ": 0}",
      JObj [("prompt", JStr "hi"); ("max_tokens", JInt 0)]);
   ("{" ++ quoted "prompt" ++ ": " ++ quoted "hi" ++ ", " ++ quoted "temperature" ++ ": 1.5}",
      JObj [("prompt", JStr "hi"); ("temperature", JFloat (Fin (3 # 2)))]);
   ("{" ++ quoted "prompt" ++ ": " ++ quoted "hi" ++ ", " ++ quoted "top_p" ++ ": "
        ++ quoted "high" ++ "}",
      JObj [("prompt", JStr "hi"); ("top_p", JStr "high")]);
   ("{" ++ quoted "results" ++ ": [{" ++ quoted "outputText" ++ ": " ++ quoted "hello" ++ "}]}",
      JObj [("results", JList [JObj [("outputText", JStr "hello")]])])].

Definition more_json_loads (s : string) : option json :=
  match assoc s sample_documents with
  | Some j => Some j
  | None => assoc s more_documents
  end.

Definition anthropic_model : string := "anthropic.claude-3-sonnet-20240229-v1:0".

Definition hi_text : string := "{" ++ quoted "prompt" ++ ": " ++ quoted "hi" ++ "}".

Definition max_tokens_zero_text : string :=
  "{" ++ quoted "prompt" ++ ": " ++ quoted "hi" ++ ", " ++ quoted "max_tokens" ++ ": 0}".

Definition temperature_high_text : string :=
  "{" ++ quoted "prompt" ++ ": " ++ quoted "hi" ++ ", " ++ quoted "temperature" ++ ": 1.5}".

Definition top_p_word_text : string :=
  "{" ++ quoted "prompt" ++ ": " ++ quoted "hi" ++ ", " ++ quoted "top_p" ++ ": "
  ++ quoted "high" ++ "}".

(** A Bedrock runtime answering every call with a Titan-shaped body. *)
Definition remote_titan (model_id : string) (payload : json) : result remote_response :=
  Ok {| resp_body := "{" ++ quoted "results" ++ ": [{" ++ quoted "outputText" ++ ": "
                       ++ quoted "hello" ++ "}]}";
        resp_metadata := Some (JObj [("RequestId", JStr "req-3")]) |}.

(** A Bedrock runtime that throttles every call. *)
Definition remote_throttled (model_id : string) (payload : json) : result remote_response :=
  Exc (ClientError "ThrottlingException" "Rate exceeded").

Section Program.

(** [json.loads] on a [str]: [None] when it raises [JSONDecodeError]. *)
Variable json_loads : string -> option json.

(** [json.loads(v)]: a non-[str] argument raises [TypeError]. *)
Definition py_json_loads (v : json) : result json :=
  match v with
  | JStr s => match json_loads s with Some j => Ok j | None => Exc JSONDecodeError end
  | _ => Exc TypeError
  end.

(** The body of the [try] in [validate_request]. *)
Definition validate_try (ev : event) : result (bool * string * option json) :=
  if py_eq_str "OPTIONS" (ev_get ev "httpMethod") then ret (true, "CORS preflight", None) else
  if negb (py_eq_str "POST" (ev_get ev "httpMethod"))
  then ret (false, "Only POST method is supported", None) else
  match assoc "body" ev with
  | None => ret (false, "Request body is required", None)
  | Some b =>
    if negb (truthy b) then ret (false, "Request body is required", None) else
    body <- py_json_loads b ;;
    has_prompt <- py_contains "prompt" body ;;
    bad_prompt <- (if has_prompt
                   then (p <- py_getitem body (JStr "prompt") ;; ret (negb (truthy p)))
                   else ret true) ;;
    if bad_prompt then ret (false, "Prompt is required in request body", None) else
    has_mt <- py_contains "max_tokens" body ;;
    bad_mt <- (if has_mt
               then (v <- py_getitem body (JStr "max_tokens") ;;
                     ret (negb (py_isinstance_int v) || py_lt_one v))
               else ret false) ;;
    if bad_mt then ret (false, "max_tokens must be a positive integer", None) else
    has_t <- py_contains "temperature" body ;;
    bad_t <- (if has_t
              then (v <- py_getitem body (JStr "temperature") ;;
                    ret (negb (py_isinstance_num v) || negb (py_between_0_1 v)))
              else ret false) ;;
    if bad_t then ret (false, "temperature must be a number between 0 and 1", None) else
    has_tp <- py_contains "top_p" body ;;
    bad_tp <- (if has_tp
               then (v <- py_getitem body (JStr "top_p") ;;
                     ret (negb (py_isinstance_num v) || negb (py_between_0_1 v)))
               else ret false) ;;
    if bad_tp then ret (false, "top_p must be a number between 0 and 1", None) else
    ret (true, "Valid request", Some body)
  end.

Definition validate_request (ev : event) : bool * string * option json :=
  match validate_try ev with
  | Ok r => r
  | Exc JSONDecodeError => (false, "Invalid JSON in request body", None)
  | Exc _ => (false, "Internal validation error", None)
  end.


(** [str(d)] of a decoded response (Python's [repr] of the value). *)
Variable py_repr : json -> string.

(** The remote Bedrock runtime: its answer to [invoke_model] for a model
    id and a request body, or the exception the client raises. *)
Variable bedrock_invoke : string -> json -> result remote_response.

(** [bedrock_client.invoke_model(modelId=..., body=json.dumps(...))]:
    one outbound call, recorded in the log. *)
Definition invoke_model (model_id : string) (request_body : json) : PyM remote_response :=
  fun log => (bedrock_invoke model_id request_body, (log ++ [(model_id, request_body)])%list).

Definition request_body_for (model_id : string) (prompt max_tokens temperature top_p : json)
  : json :=
  if str_contains "anthropic" model_id then
    JObj [("anthropic_version", JStr "bedrock-2023-05-31");
          ("max_tokens", max_tokens);
          ("temperature", temperature);
          ("top_p", top_p);
          ("messages", JList [JObj [("role", JStr "user"); ("content", prompt)]])]
  else if str_contains "amazon.titan" model_id then
    JObj [("inputText", prompt);
          ("textGenerationConfig",
             JObj [("maxTokenCount", max_tokens);
                   ("temperature", temperature);
                   ("topP", top_p)])]
  else
    JObj [("prompt", prompt);
          ("max_tokens", max_tokens);
          ("temperature", temperature);
          ("top_p", top_p)].

(** Content extraction from the decoded response, per model family. *)
Definition parse_content (model_id : string) (response_body : json) : result json :=
  if str_contains "anthropic" model_id then
    c <- py_getitem response_body (JStr "content") ;;
    c0 <- py_getitem c (JInt 0) ;;
    py_getitem c0 (JStr "text")
  else if str_contains "amazon.titan" model_id then
    r <- py_getitem response_body (JStr "results") ;;
    r0 <- py_getitem r (JInt 0) ;;
    py_getitem r0 (JStr "outputText")
  else
    t <- py_dict_get response_body "text" (JStr (py_repr response_body)) ;;
    py_dict_get response_body "completion" t.

(** The [except] clauses of [invoke_bedrock_model]. *)
Definition invoke_error (e : exn) : invocation :=
  match e with
  | ClientError code message => InvErr code message
  | BotoCoreError message => InvErr "BotoCoreError" message
  | _ => InvErr "InternalError" "An unexpected error occurred"
  end.

(** The body of the [try] in [invoke_bedrock_model]. *)
Definition invoke_try (cfg : config) (prompt max_tokens temperature top_p : json)
  : PyM invocation :=
  let max_tokens := py_or max_tokens (JInt (MAX_TOKENS cfg)) in
  let temperature := py_or temperature (JFloat (TEMPERATURE cfg)) in
  let top_p := py_or top_p (JFloat (TOP_P cfg)) in
  let model_id := BEDROCK_MODEL_ID cfg in
  let request_body := request_body_for model_id prompt max_tokens temperature top_p in
  response <~ invoke_model model_id request_body ;;
  response_body <~ lift (py_json_loads (JStr (resp_body response))) ;;
  content <~ lift (parse_content model_id response_body) ;;
  usage <~ lift (py_dict_get response_body "usage" (JObj [])) ;;
  request_id <~ lift (py_dict_get (match resp_metadata response with
                                   | Some m => m
                                   | None => JObj []
                                   end) "RequestId" JNull) ;;
  pret (InvOk content model_id usage request_id).

(** [invoke_bedrock_model(prompt, max_tokens, temperature, top_p)];
    an omitted argument is [None], i.e. [JNull]. *)
Definition invoke_bedrock_model (cfg : config) (prompt max_tokens temperature top_p : json)
  : PyM invocation :=
  py_try (invoke_try cfg prompt max_tokens temperature top_p)
         (fun e => pret (invoke_error e)).

(** The request body [invoke_bedrock_model] sends for its arguments. *)
Definition outbound_body (cfg : config) (prompt max_tokens temperature top_p : json) : json :=
  request_body_for (BEDROCK_MODEL_ID cfg) prompt (py_or max_tokens (JInt (MAX_TOKENS cfg)))
    (py_or temperature (JFloat (TEMPERATURE cfg))) (py_or top_p (JFloat (TOP_P cfg))).

(** The clock: [round((time.time() - start_time) * 1000, 2)] and
    [int(time.time())]. *)
Variable execution_time_ms : pyfloat.
Variable now : Z.

(** The Lambda context: [Some id] for a context whose [aws_request_id]
    is [id], [None] for [None]. *)
Definition lambda_context := option string.

Definition metadata (context : lambda_context) : json :=
  JObj [("execution_time_ms", JFloat execution_time_ms);
        ("timestamp", JInt now);
        ("request_id", match context with Some id => JStr id | None => JNull end)].

Definition internal_error_body (context : lambda_context) : json :=
  JObj [("success", JBool false);
        ("error", JObj [("code", JStr "InternalServerError");
                        ("message", JStr "An unexpected error occurred")]);
        ("metadata", metadata context)].

(** The body of the [try] in [handler]; the logging of the event with
    [json.dumps] is left out (the event is decoded JSON). *)
Definition handler_try (cfg : config) (ev : event) (context : lambda_context)
  : PyM envelope :=
  let '(is_valid, message, request_body) := validate_request ev in
  if negb is_valid then
    pret (create_response 400 (JObj [("error", JBool true);
                                     ("message", JStr message);
                                     ("timestamp", JInt now)]) None)
  else if py_eq_str "OPTIONS" (ev_get ev "httpMethod") then
    pret (create_response 200 (JObj [("message", JStr "CORS preflight successful");
                                     ("timestamp", JInt now)]) None)
  else
    let request_body := match request_body with Some b => b | None => JNull end in
    prompt <~ lift (py_getitem request_body (JStr "prompt")) ;;
    max_tokens <~ lift (py_dict_get request_body "max_tokens" JNull) ;;
    temperature <~ lift (py_dict_get request_body "temperature" JNull) ;;
    top_p <~ lift (py_dict_get request_body "top_p" JNull) ;;
    result <~ invoke_bedrock_model cfg prompt max_tokens temperature top_p ;;
    match result with
    | InvOk content model_id usage _ =>
        pret (create_response 200 (JObj [("success", JBool true);
                                         ("content", content);
                                         ("model_id", JStr model_id);
                                         ("usage", usage);
                                         ("metadata", metadata context)]) None)
    | InvErr code msg =>
        pret (create_response 500 (JObj [("success", JBool false);
                                         ("error", JObj [("code", JStr code);
                                                         ("message", JStr msg)]);
                                         ("metadata", metadata context)]) None)
    end.

(** The [except Exception] clause of [handler]. *)
Definition handler_except (context : lambda_context) (e : exn) : PyM envelope :=
  pret (create_response 500 (internal_error_body context) None).

Definition handler (cfg : config) (ev : event) (context : lambda_context) : PyM envelope :=
  py_try (handler_try cfg ev context) (handler_except context).


(** ** Facts about the Python operations *)

Lemma py_eq_str_true (s : string) (v : json) :
  py_eq_str s v = true <-> v = JStr s.
Proof.
  destruct v; simpl; split; intro H; try discriminate.
  - apply String.eqb_eq in H; subst; reflexivity.
  - inversion H; subst; apply String.eqb_refl.
Qed.

Lemma py_eq_str_false (s : string) (v : json) :
  v <> JStr s -> py_eq_str s v = false.
Proof.
  intro H. destruct (py_eq_str s v) eqn:E; [|reflexivity].
  apply py_eq_str_true in E. contradiction.
Qed.

Lemma py_getitem_str_ok (o : json) (k : string) (v : json) :
  py_getitem o (JStr k) = Ok v -> exists kv, o = JObj kv /\ assoc k kv = Some v.
Proof.
  destruct o; simpl; try discriminate.
  destruct (assoc k kv) eqn:E; intro H; inversion H; subst; eauto.
Qed.

Lemma truthy_nonempty_str (s : string) : s <> EmptyString -> truthy (JStr s) = true.
Proof.
  intro H. simpl. apply negb_true_iff, String.eqb_neq, H.
Qed.

(** Case analysis on every [match] in a hypothesis, closing the branches
    that contradict it. *)
Ltac split_matches H :=
  repeat (simpl in H;
          match type of H with
          | context [match ?x with _ => _ end] =>
              lazymatch x with
              | context [match _ with _ => _ end] => fail
              | _ => let E := fresh "E" in destruct x eqn:E
              end
          end; try discriminate H).

(** What a successful validation guarantees: either a preflight, or a
    [POST] whose body is a [dict] holding a truthy ["prompt"]. *)
Lemma validate_request_true (ev : event) (m : string) (rb : option json) :
  validate_request ev = (true, m, rb) ->
  (ev_get ev "httpMethod" = JStr "OPTIONS" /\ rb = None) \/
  (ev_get ev "httpMethod" = JStr "POST" /\
   exists kv p, rb = Some (JObj kv) /\ assoc "prompt" kv = Some p /\ truthy p = true).
Proof.
  unfold validate_request. intro H.
  destruct (validate_try ev) as [r|e] eqn:Ev; [subst r | destruct e; discriminate].
  unfold validate_try, bind, ret in Ev.
  split_matches Ev; inversion Ev; subst.
  1: left; split; [apply py_eq_str_true; assumption | reflexivity].
  all: right; split; [apply py_eq_str_true, negb_false_iff; assumption |].
  all: match goal with
    | Hg : py_getitem _ (JStr "prompt") = Ok ?p, Ht : negb (truthy ?p) = false |- _ =>
        destruct (py_getitem_str_ok _ _ _ Hg) as [kv [-> Ha]];
        exists kv, p; repeat split; [assumption | apply negb_false_iff, Ht]
    end.
Qed.


Lemma invoke_bedrock_model_ok (cfg : config) (prompt mt t tp : json) (log : list call) :
  exists i log', invoke_bedrock_model cfg prompt mt t tp log = (Ok i, log').
Proof.
  unfold invoke_bedrock_model, py_try, pret.
  destruct (invoke_try cfg prompt mt t tp log) as [[i|e] log']; eauto.
Qed.

(** A rejected request is answered 400 without any remote call. *)
Lemma handler_invalid (cfg : config) (ev : event) (context : lambda_context)
  (log : list call) (m : string) (x : option json) :
  validate_request ev = (false, m, x) ->
  handler cfg ev context log =
    (Ok (create_response 400 (JObj [("error", JBool true);
                                    ("message", JStr m);
                                    ("timestamp", JInt now)]) None), log).
Proof.
  intro H. unfold handler, py_try, handler_try. rewrite H. reflexivity.
Qed.

(** The [try] body of [handler] never raises: every path returns an
    envelope built by [create_response]. *)
Lemma handler_try_ok (cfg : config) (ev : event) (context : lambda_context)
  (log : list call) :
  exists st b log', handler_try cfg ev context log = (Ok (create_response st b None), log').
Proof.
  unfold handler_try.
  destruct (validate_request ev) as [[v m] rb] eqn:Hv.
  destruct v; [| do 3 eexists; reflexivity].
  cbn [negb].
  destruct (py_eq_str "OPTIONS" (ev_get ev "httpMethod")) eqn:Eo; [do 3 eexists; reflexivity |].
  destruct (validate_request_true _ _ _ Hv) as [[Hm _] | [Hm [kv [p [-> [Ha Ht]]]]]].
  - rewrite Hm in Eo. discriminate.
  - unfold pbind, lift. cbn [py_getitem py_dict_get]. rewrite Ha.
    destruct (invoke_bedrock_model_ok cfg p
                (match assoc "max_tokens" kv with Some v => v | None => JNull end)
                (match assoc "temperature" kv with Some v => v | None => JNull end)
                (match assoc "top_p" kv with Some v => v | None => JNull end) log)
      as [i [log' Hi]].
    rewrite Hi. destruct i; do 3 eexists; reflexivity.
Qed.


(** ** The claims *)

(** C5: a request whose [httpMethod] is ["OPTIONS"] is answered with
    status 200 ("CORS preflight successful") and the call log is left
    unchanged: [invoke_bedrock_model] is never reached. *)
Theorem handler_options_short_circuit (cfg : config) (ev : event)
  (context : lambda_context) (log : list call)
  (Hm : ev_get ev "httpMethod" = JStr "OPTIONS") :
  exists env,
    handler cfg ev context log = (Ok env, log) /\
    statusCode env = 200 /\
    body env = JObj [("message", JStr "CORS preflight successful"); ("timestamp", JInt now)].
Proof.
  unfold handler, py_try, handler_try, validate_request, validate_try.
  rewrite Hm. eexists. repeat split.
Qed.

(** C6: a request whose [httpMethod] is neither ["POST"] nor ["OPTIONS"]
    (also a missing one) fails validation with "Only POST method is
    supported" and is answered with status 400, without a remote call. *)
Theorem handler_rejects_other_methods (cfg : config) (ev : event)
  (context : lambda_context) (log : list call)
  (Hpost : ev_get ev "httpMethod" <> JStr "POST")
  (Hopt : ev_get ev "httpMethod" <> JStr "OPTIONS") :
  validate_request ev = (false, "Only POST method is supported", None) /\
  handler cfg ev context log =
    (Ok (create_response 400 (JObj [("error", JBool true);
                                    ("message", JStr "Only POST method is supported");
                                    ("timestamp", JInt now)]) None), log).
Proof.
  assert (Hv : validate_request ev = (false, "Only POST method is supported", None)).
  { unfold validate_request, validate_try.
    rewrite (py_eq_str_false _ _ Hopt), (py_eq_str_false _ _ Hpost). reflexivity. }
  split; [exact Hv | apply handler_invalid with (x := None); exact Hv].
Qed.

(** C7: whatever the request and whatever the outcome, the envelope the
    handler returns carries exactly the four fixed CORS headers. *)
Theorem handler_cors_headers (cfg : config) (ev : event) (context : lambda_context)
  (log : list call) :
  exists env log', handler cfg ev context log = (Ok env, log') /\
    headers env =
      [("Content-Type", "application/json");
       ("Access-Control-Allow-Origin", "*");
       ("Access-Control-Allow-Headers",
          "Content-Type,X-Amz-Date,Authorization,X-Api-Key,X-Amz-Security-Token");
       ("Access-Control-Allow-Methods", "GET,POST,OPTIONS")].
Proof.
  unfold handler, py_try.
  destruct (handler_try_ok cfg ev context log) as [st [b [log' ->]]].
  exists (create_response st b None), log'. split; reflexivity.
Qed.

(** C9: the handler is total, no exception escapes it, and its outer
    [except] clause turns any exception into a status-500 envelope whose
    body has [success = false], code "InternalServerError", the generic
    message and the metadata object. *)
Theorem handler_total (cfg : config) (ev : event) (context : lambda_context)
  (log : list call) :
  (exists env log', handler cfg ev context log = (Ok env, log')) /\
  (forall e log0,
     handler_except context e log0 =
       (Ok (create_response 500
              (JObj [("success", JBool false);
                     ("error", JObj [("code", JStr "InternalServerError");
                                     ("message", JStr "An unexpected error occurred")]);
                     ("metadata",
                        JObj [("execution_time_ms", JFloat execution_time_ms);
                              ("timestamp", JInt now);
                              ("request_id", match context with
                                             | Some id => JStr id
                                             | None => JNull
                                             end)])]) None), log0)).
Proof.
  split.
  - unfold handler, py_try.
    destruct (handler_try_ok cfg ev context log) as [st [b [log' ->]]]. eauto.
  - intros e log0. reflexivity.
Qed.

(** C10: a [POST] whose body is valid JSON but not an object fails
    validation, either as a missing prompt or as an internal validation
    error, and is answered with status 400 without a remote call. *)
Theorem handler_nonobject_body (cfg : config) (ev : event) (context : lambda_context)
  (log : list call) (s : string) (j : json)
  (Hm : ev_get ev "httpMethod" = JStr "POST")
  (Hb : assoc "body" ev = Some (JStr s))
  (Hs : s <> EmptyString)
  (Hl : json_loads s = Some j)
  (Hj : forall kv, j <> JObj kv) :
  (validate_request ev = (false, "Prompt is required in request body", None) \/
   validate_request ev = (false, "Internal validation error", None)) /\
  exists m,
    handler cfg ev context log =
      (Ok (create_response 400 (JObj [("error", JBool true);
                                      ("message", JStr m);
                                      ("timestamp", JInt now)]) None), log).
Proof.
  assert (Hv : validate_request ev = (false, "Prompt is required in request body", None) \/
               validate_request ev = (false, "Internal validation error", None)).
  { unfold validate_request, validate_try. rewrite Hm. cbn - [truthy].
    rewrite Hb, (truthy_nonempty_str _ Hs). cbn [negb py_json_loads bind].
    rewrite Hl.
    destruct j as [| b | z | f | t | l | kv]; cbn; auto.
    - destruct (str_contains "prompt" t); cbn; auto.
    - destruct (existsb (py_eq_str "prompt") l); cbn; auto.
    - exfalso. exact (Hj kv eq_refl). }
  split; [exact Hv |].
  destruct Hv as [Hv | Hv]; eexists; apply handler_invalid with (x := None); exact Hv.
Qed.


(** C3 (as amended): for a [POST] whose body parses as a JSON object,
    a missing or falsy ["prompt"] (empty string, [null], [false], [0],
    [0.0], empty array or object) makes validation fail with "Prompt is
    required in request body" and the handler answer 400 without a remote
    call; and validation succeeds only if ["prompt"] is present and
    truthy. *)
Theorem validate_prompt_required (cfg : config) (ev : event)
  (context : lambda_context) (log : list call) (s : string)
  (kv : list (string * json))
  (Hm : ev_get ev "httpMethod" = JStr "POST")
  (Hb : assoc "body" ev = Some (JStr s))
  (Hs : s <> EmptyString)
  (Hl : json_loads s = Some (JObj kv)) :
  ((match assoc "prompt" kv with None => True | Some p => truthy p = false end) ->
   validate_request ev = (false, "Prompt is required in request body", None) /\
   handler cfg ev context log =
     (Ok (create_response 400
            (JObj [("error", JBool true);
                   ("message", JStr "Prompt is required in request body");
                   ("timestamp", JInt now)]) None), log)) /\
  (forall m b, validate_request ev = (true, m, b) ->
   exists p, assoc "prompt" kv = Some p /\ truthy p = true).
Proof.
  assert (Hpre : validate_try ev =
    match py_contains "prompt" (JObj kv) with
    | Ok true =>
        match py_getitem (JObj kv) (JStr "prompt") with
        | Ok p => if negb (truthy p) then ret (false, "Prompt is required in request body", None)
                  else validate_try ev
        | Exc e => Exc e
        end
    | _ => ret (false, "Prompt is required in request body", None)
    end).
  { cbn [py_contains py_getitem].
    destruct (assoc "prompt" kv) as [p|] eqn:Ep.
    - destruct (negb (truthy p)) eqn:Et; [| reflexivity].
      unfold validate_try. rewrite Hm. cbn - [truthy].
      rewrite Hb, (truthy_nonempty_str _ Hs). cbn [negb py_json_loads bind].
      rewrite Hl. cbn [py_contains py_getitem bind ret]. rewrite Ep. cbn [bind ret].
      rewrite Et. reflexivity.
    - unfold validate_try. rewrite Hm. cbn - [truthy].
      rewrite Hb, (truthy_nonempty_str _ Hs). cbn [negb py_json_loads bind].
      rewrite Hl. cbn [py_contains py_getitem bind ret]. rewrite Ep. reflexivity. }
  cbn [py_contains py_getitem] in Hpre.
  split.
  - intro Hp.
    assert (Hv : validate_request ev = (false, "Prompt is required in request body", None)).
    { unfold validate_request. rewrite Hpre.
      destruct (assoc "prompt" kv) as [p|]; [rewrite Hp |]; reflexivity. }
    split; [exact Hv | apply handler_invalid with (x := None); exact Hv].
  - intros m b Hv. unfold validate_request in Hv. rewrite Hpre in Hv.
    destruct (assoc "prompt" kv) as [p|]; [| discriminate].
    destruct (truthy p) eqn:Et; [eauto | discriminate].
Qed.



(** Apart from booleans, a [max_tokens] that is not a positive [int]
    (zero, negative, a float, a string, [null], a list or a dict) is
    rejected with the message naming the field, once the prompt passed. *)
Lemma validate_max_tokens_rejects (ev : event) (s : string)
  (kv : list (string * json)) (p v : json)
  (Hm : ev_get ev "httpMethod" = JStr "POST")
  (Hb : assoc "body" ev = Some (JStr s))
  (Hs : s <> EmptyString)
  (Hl : json_loads s = Some (JObj kv))
  (Hp : assoc "prompt" kv = Some p)
  (Hpt : truthy p = true)
  (Hmt : assoc "max_tokens" kv = Some v)
  (Hv : match v with JInt z => z < 1 | JBool _ => False | _ => True end) :
  validate_request ev = (false, "max_tokens must be a positive integer", None).
Proof.
  unfold validate_request, validate_try. rewrite Hm. cbn - [truthy].
  rewrite Hb, (truthy_nonempty_str _ Hs). cbn [negb py_json_loads bind].
  rewrite Hl. cbn [py_contains py_getitem bind ret]. rewrite Hp. cbn [bind ret]. rewrite Hpt.
  cbn [negb bind ret]. rewrite Hmt. cbn [bind ret].
  destruct v; try contradiction; try reflexivity.
  cbn. apply Z.ltb_lt in Hv. rewrite Hv. reflexivity.
Qed.

(** The exceptions of the Python built-ins are neither botocore class. *)
Definition builtin_exn (e : exn) : bool :=
  match e with
  | ClientError _ _ | BotoCoreError _ => false
  | _ => true
  end.

Lemma py_getitem_exn (o k : json) (e : exn) :
  py_getitem o k = Exc e -> builtin_exn e = true.
Proof.
  unfold py_getitem.
  destruct o; intro H; split_matches H; inversion H; reflexivity.
Qed.

Lemma py_dict_get_exn (o : json) (k : string) (d : json) (e : exn) :
  py_dict_get o k d = Exc e -> builtin_exn e = true.
Proof. destruct o; intro H; inversion H; reflexivity. Qed.

Lemma py_json_loads_exn (v : json) (e : exn) :
  py_json_loads v = Exc e -> builtin_exn e = true.
Proof.
  unfold py_json_loads. intro H. split_matches H; inversion H; reflexivity.
Qed.

Lemma parse_content_exn (model_id : string) (rb : json) (e : exn) :
  parse_content model_id rb = Exc e -> builtin_exn e = true.
Proof.
  unfold parse_content, bind. intro H.
  destruct (str_contains "anthropic" model_id);
  [| destruct (str_contains "amazon.titan" model_id)];
  split_matches H;
  try match goal with Hx : Exc _ = Exc _ |- _ => inversion Hx; subst end;
  first [ eapply py_getitem_exn; eassumption
        | eapply py_dict_get_exn; eassumption ].
Qed.


(** C2 (as amended): a [BotoCoreError] raised by the remote call (the
    botocore class of network and endpoint failures) is returned with code
    "BotoCoreError" and the exception's own message [str(e)]; any other
    non-[ClientError] exception of the remote call, and every exception
    raised after a successful remote call (undecodable body, missing
    fields, wrong shapes), is returned with code "InternalError" and the
    fixed message "An unexpected error occurred". *)
Theorem invoke_nonclient_failures (cfg : config) (prompt mt t tp : json) (log : list call) :
  let model_id := BEDROCK_MODEL_ID cfg in
  let payload := request_body_for model_id prompt (py_or mt (JInt (MAX_TOKENS cfg)))
                   (py_or t (JFloat (TEMPERATURE cfg))) (py_or tp (JFloat (TOP_P cfg))) in
  let log1 := (log ++ [(model_id, payload)])%list in
  (forall m, bedrock_invoke model_id payload = Exc (BotoCoreError m) ->
     invoke_bedrock_model cfg prompt mt t tp log = (Ok (InvErr "BotoCoreError" m), log1)) /\
  (forall e, bedrock_invoke model_id payload = Exc e -> builtin_exn e = true ->
     invoke_bedrock_model cfg prompt mt t tp log =
       (Ok (InvErr "InternalError" "An unexpected error occurred"), log1)) /\
  (forall r e log', bedrock_invoke model_id payload = Ok r ->
     invoke_try cfg prompt mt t tp log = (Exc e, log') ->
     invoke_bedrock_model cfg prompt mt t tp log =
       (Ok (InvErr "InternalError" "An unexpected error occurred"), log')).
Proof.
  cbv zeta. split; [| split].
  - intros m H.
    unfold invoke_bedrock_model, py_try, invoke_try, pbind, invoke_model.
    cbv zeta. rewrite H. reflexivity.
  - intros e H Hb.
    unfold invoke_bedrock_model, py_try, invoke_try, pbind, invoke_model.
    cbv zeta. rewrite H.
    destruct e; try discriminate Hb; reflexivity.
  - intros r e log' Hr Hx.
    assert (Hb : builtin_exn e = true).
    { unfold invoke_try, pbind, invoke_model, lift, pret in Hx. cbv zeta in Hx.
      rewrite Hr in Hx.
      split_matches Hx; inversion Hx; subst;
      first [ reflexivity
            | eapply py_json_loads_exn; eassumption
            | eapply parse_content_exn; eassumption
            | eapply py_dict_get_exn; eassumption ]. }
    unfold invoke_bedrock_model, py_try. rewrite Hx.
    destruct e; try discriminate Hb; reflexivity.
Qed.

(** C8: with a model id containing neither "anthropic" nor
    "amazon.titan", the content of a successful answer decoded to a dict
    is its ["completion"], else its ["text"], else [str()] of the whole
    dict; the usage is its ["usage"] or [{}], and exactly one remote call
    is made. *)
Theorem generic_content_extraction (cfg : config) (prompt mt t tp : json)
  (log : list call) (r : remote_response) (kv : list (string * json))
  (Ha : str_contains "anthropic" (BEDROCK_MODEL_ID cfg) = false)
  (Ht : str_contains "amazon.titan" (BEDROCK_MODEL_ID cfg) = false)
  (Hr : bedrock_invoke (BEDROCK_MODEL_ID cfg)
          (request_body_for (BEDROCK_MODEL_ID cfg) prompt (py_or mt (JInt (MAX_TOKENS cfg)))
             (py_or t (JFloat (TEMPERATURE cfg))) (py_or tp (JFloat (TOP_P cfg)))) = Ok r)
  (Hb : json_loads (resp_body r) = Some (JObj kv))
  (Hmd : forall md, resp_metadata r = Some md -> exists mkv, md = JObj mkv) :
  exists request_id,
    invoke_bedrock_model cfg prompt mt t tp log =
      (Ok (InvOk (match assoc "completion" kv with
                  | Some v => v
                  | None => match assoc "text" kv with
                            | Some v => v
                            | None => JStr (py_repr (JObj kv))
                            end
                  end)
                 (BEDROCK_MODEL_ID cfg)
                 (match assoc "usage" kv with Some u => u | None => JObj [] end)
                 request_id),
       (log ++ [(BEDROCK_MODEL_ID cfg,
                 request_body_for (BEDROCK_MODEL_ID cfg) prompt (py_or mt (JInt (MAX_TOKENS cfg)))
                   (py_or t (JFloat (TEMPERATURE cfg))) (py_or tp (JFloat (TOP_P cfg))))])%list).
Proof.
  unfold invoke_bedrock_model, py_try, invoke_try, pbind, invoke_model, lift, pret.
  cbv zeta. rewrite Hr.
  unfold py_json_loads. rewrite Hb.
  unfold parse_content. rewrite Ha, Ht.
  destruct (resp_metadata r) as [md|] eqn:Em.
  - destruct (Hmd md eq_refl) as [mkv ->]. eexists. reflexivity.
  - eexists. reflexivity.
Qed.


(** ** Further properties of the module *)

Lemma assoc_app {A} (k : string) (l1 l2 : list (string * A)) :
  assoc k (l1 ++ l2)%list = match assoc k l1 with Some v => Some v | None => assoc k l2 end.
Proof.
  induction l1 as [| [k' v'] l1 IH]; simpl; [reflexivity |].
  destruct (String.eqb k k'); [reflexivity | exact IH].
Qed.

Lemma dict_set_assoc (k k' v : string) (d : list (string * string)) :
  assoc k (dict_set k' v d) = if String.eqb k k' then Some v else assoc k d.
Proof.
  induction d as [| [k0 v0] d IH]; simpl.
  - reflexivity.
  - destruct (String.eqb k' k0) eqn:E0.
    + apply String.eqb_eq in E0. subst k0. simpl.
      destruct (String.eqb k k'); reflexivity.
    + simpl. rewrite IH.
      destruct (String.eqb k k') eqn:E1; [| reflexivity].
      destruct (String.eqb k k0) eqn:E2; [| reflexivity].
      apply String.eqb_eq in E1. apply String.eqb_eq in E2.
      apply String.eqb_neq in E0. congruence.
Qed.

Lemma dict_update_assoc (k : string) (h d : list (string * string)) :
  assoc k (dict_update d h) =
    match assoc k (rev h) with Some v => Some v | None => assoc k d end.
Proof.
  unfold dict_update. revert d.
  induction h as [| [k' v'] h IH]; intro d; simpl; [reflexivity |].
  rewrite IH, dict_set_assoc, assoc_app. simpl.
  destruct (assoc k (rev h)); [reflexivity |].
  destruct (String.eqb k k'); reflexivity.
Qed.

(** [create_response] with extra headers: a header's value is the last
    value the extra headers give it, else the default one; without extra
    headers (or with an empty dict) the defaults are returned as they
    are. *)
Theorem create_response_header_lookup (status_code : Z) (b : json)
  (extra : option (list (string * string))) (k : string) :
  assoc k (headers (create_response status_code b extra)) =
    match extra with
    | Some h => match assoc k (rev h) with Some v => Some v | None => assoc k default_headers end
    | None => assoc k default_headers
    end /\
  statusCode (create_response status_code b extra) = status_code /\
  body (create_response status_code b extra) = b.
Proof.
  split; [| split; reflexivity].
  destruct extra as [[| kv h] |]; cbn [create_response headers];
    [reflexivity | apply (dict_update_assoc k (kv :: h)) | reflexivity].
Qed.

(** A [POST] whose body is not valid JSON is rejected with "Invalid JSON in
    request body" and answered 400 without any remote call. *)
Theorem validate_invalid_json (cfg : config) (ev : event) (context : lambda_context)
  (log : list call) (s : string)
  (Hm : ev_get ev "httpMethod" = JStr "POST")
  (Hb : assoc "body" ev = Some (JStr s))
  (Hs : s <> EmptyString)
  (Hl : json_loads s = None) :
  validate_request ev = (false, "Invalid JSON in request body", None) /\
  handler cfg ev context log =
    (Ok (create_response 400 (JObj [("error", JBool true);
                                    ("message", JStr "Invalid JSON in request body");
                                    ("timestamp", JInt now)]) None), log).
Proof.
  assert (Hv : validate_request ev = (false, "Invalid JSON in request body", None)).
  { unfold validate_request, validate_try. rewrite Hm. cbn - [truthy].
    rewrite Hb, (truthy_nonempty_str _ Hs). cbn [negb py_json_loads bind].
    rewrite Hl. reflexivity. }
  split; [exact Hv | apply handler_invalid with (x := None); exact Hv].
Qed.

(** A [POST] without a body, or with a falsy one ([null], [""]), is
    rejected with "Request body is required" and answered 400 without any
    remote call. *)
Theorem validate_body_required (cfg : config) (ev : event) (context : lambda_context)
  (log : list call)
  (Hm : ev_get ev "httpMethod" = JStr "POST")
  (Hb : match assoc "body" ev with None => True | Some b => truthy b = false end) :
  validate_request ev = (false, "Request body is required", None) /\
  handler cfg ev context log =
    (Ok (create_response 400 (JObj [("error", JBool true);
                                    ("message", JStr "Request body is required");
                                    ("timestamp", JInt now)]) None), log).
Proof.
  assert (Hv : validate_request ev = (false, "Request body is required", None)).
  { unfold validate_request, validate_try. rewrite Hm. cbn - [truthy].
    destruct (assoc "body" ev) as [b|]; [rewrite Hb |]; reflexivity. }
  split; [exact Hv | apply handler_invalid with (x := None); exact Hv].
Qed.

(** A [POST] whose body is truthy but not a [str] (a number, a list or a
    dict handed over as such) makes [json.loads] raise [TypeError], which
    is reported as "Internal validation error". *)
Theorem validate_non_string_body (ev : event) (b : json)
  (Hm : ev_get ev "httpMethod" = JStr "POST")
  (Hb : assoc "body" ev = Some b)
  (Ht : truthy b = true)
  (Hns : forall s, b <> JStr s) :
  validate_request ev = (false, "Internal validation error", None).
Proof.
  unfold validate_request, validate_try. rewrite Hm. cbn - [truthy].
  rewrite Hb, Ht. cbn [negb].
  destruct b; try reflexivity.
  exfalso. exact (Hns s eq_refl).
Qed.


Lemma valid_max_tokens_negb (v : json) :
  negb (py_isinstance_int v) || py_lt_one v = negb (valid_max_tokens v).
Proof.
  unfold valid_max_tokens. destruct (py_isinstance_int v), (py_lt_one v); reflexivity.
Qed.

Lemma valid_unit_negb (v : json) :
  negb (py_isinstance_num v) || negb (py_between_0_1 v) = negb (valid_unit v).
Proof.
  unfold valid_unit. destruct (py_isinstance_num v), (py_between_0_1 v); reflexivity.
Qed.

(** Runs [validate_try] on a [POST] up to the checks of the decoded
    [dict]. *)
Ltac validate_prefix Hm Hb Hs Hl :=
  unfold validate_request, validate_try; rewrite Hm; cbn - [truthy];
  rewrite Hb, (truthy_nonempty_str _ Hs); cbn [negb py_json_loads bind];
  rewrite Hl; cbn [py_contains py_getitem bind ret].

(** Runs one field check that passes. *)
Ltac field_passes H :=
  unfold field_ok in H;
  match type of H with
  | context [assoc ?k ?kv] =>
      destruct (assoc k kv) as [?v|]; cbn [bind ret];
      [ first [ rewrite valid_max_tokens_negb, H | rewrite valid_unit_negb, H ];
        cbn [negb] |]
  end.

(** A [POST] whose body decodes to a [dict] with a truthy ["prompt"] and
    whose optional fields are well formed ([max_tokens] an [int] at least
    1, [temperature] and [top_p] numbers in [[0, 1]]) is accepted, and the
    decoded [dict] is handed on. *)
Theorem validate_accepts_valid (ev : event) (s : string) (kv : list (string * json)) (p : json)
  (Hm : ev_get ev "httpMethod" = JStr "POST")
  (Hb : assoc "body" ev = Some (JStr s))
  (Hs : s <> EmptyString)
  (Hl : json_loads s = Some (JObj kv))
  (Hp : assoc "prompt" kv = Some p)
  (Hpt : truthy p = true)
  (Hmt : field_ok kv "max_tokens" valid_max_tokens = true)
  (Ht : field_ok kv "temperature" valid_unit = true)
  (Htp : field_ok kv "top_p" valid_unit = true) :
  validate_request ev = (true, "Valid request", Some (JObj kv)).
Proof.
  validate_prefix Hm Hb Hs Hl.
  rewrite Hp. cbn [bind ret]. rewrite Hpt. cbn [negb bind ret py_contains py_getitem].
  field_passes Hmt; cbn [py_contains py_getitem bind ret];
  field_passes Ht; cbn [py_contains py_getitem bind ret];
  field_passes Htp; reflexivity.
Qed.

(** With a valid prompt, a present [max_tokens] that is not an [int] at
    least 1 ([False], [0], a negative, a float, a string, ...) is rejected
    with "max_tokens must be a positive integer", whatever the other
    fields. *)
Theorem validate_max_tokens_invalid (ev : event) (s : string) (kv : list (string * json))
  (p v : json)
  (Hm : ev_get ev "httpMethod" = JStr "POST")
  (Hb : assoc "body" ev = Some (JStr s))
  (Hs : s <> EmptyString)
  (Hl : json_loads s = Some (JObj kv))
  (Hp : assoc "prompt" kv = Some p)
  (Hpt : truthy p = true)
  (Hmt : assoc "max_tokens" kv = Some v)
  (Hbad : valid_max_tokens v = false) :
  validate_request ev = (false, "max_tokens must be a positive integer", None).
Proof.
  validate_prefix Hm Hb Hs Hl.
  rewrite Hp. cbn [bind ret]. rewrite Hpt. cbn [negb bind ret py_contains py_getitem].
  rewrite Hmt. cbn [bind ret]. rewrite valid_max_tokens_negb, Hbad. reflexivity.
Qed.

(** With a valid prompt and [max_tokens], a present [temperature] that is
    not a number in [[0, 1]] (out of range, NaN, infinite, a string, ...)
    is rejected with "temperature must be a number between 0 and 1". *)
Theorem validate_temperature_invalid (ev : event) (s : string) (kv : list (string * json))
  (p v : json)
  (Hm : ev_get ev "httpMethod" = JStr "POST")
  (Hb : assoc "body" ev = Some (JStr s))
  (Hs : s <> EmptyString)
  (Hl : json_loads s = Some (JObj kv))
  (Hp : assoc "prompt" kv = Some p)
  (Hpt : truthy p = true)
  (Hmt : field_ok kv "max_tokens" valid_max_tokens = true)
  (Ht : assoc "temperature" kv = Some v)
  (Hbad : valid_unit v = false) :
  validate_request ev = (false, "temperature must be a number between 0 and 1", None).
Proof.
  validate_prefix Hm Hb Hs Hl.
  rewrite Hp. cbn [bind ret]. rewrite Hpt. cbn [negb bind ret py_contains py_getitem].
  field_passes Hmt; cbn [py_contains py_getitem bind ret];
  rewrite Ht; cbn [bind ret]; rewrite valid_unit_negb, Hbad; reflexivity.
Qed.

(** With a valid prompt, [max_tokens] and [temperature], a present
    [top_p] that is not a number in [[0, 1]] is rejected with "top_p must
    be a number between 0 and 1". *)
Theorem validate_top_p_invalid (ev : event) (s : string) (kv : list (string * json))
  (p v : json)
  (Hm : ev_get ev "httpMethod" = JStr "POST")
  (Hb : assoc "body" ev = Some (JStr s))
  (Hs : s <> EmptyString)
  (Hl : json_loads s = Some (JObj kv))
  (Hp : assoc "prompt" kv = Some p)
  (Hpt : truthy p = true)
  (Hmt : field_ok kv "max_tokens" valid_max_tokens = true)
  (Ht : field_ok kv "temperature" valid_unit = true)
  (Htp : assoc "top_p" kv = Some v)
  (Hbad : valid_unit v = false) :
  validate_request ev = (false, "top_p must be a number between 0 and 1", None).
Proof.
  validate_prefix Hm Hb Hs Hl.
  rewrite Hp. cbn [bind ret]. rewrite Hpt. cbn [negb bind ret py_contains py_getitem].
  field_passes Hmt; cbn [py_contains py_getitem bind ret];
  field_passes Ht; cbn [py_contains py_getitem bind ret];
  rewrite Htp; cbn [bind ret]; rewrite valid_unit_negb, Hbad; reflexivity.
Qed.


(** Reads back, from the hypotheses left by a passing run of
    [validate_try], that one field check holds. *)
Ltac field_sound :=
  lazymatch goal with
  | |- field_ok ?kv ?k _ = true =>
      unfold field_ok; destruct (assoc k kv) as [v|] eqn:A; [| reflexivity];
      repeat match goal with
        | H : py_contains k (JObj kv) = _ |- _ =>
            cbn in H; rewrite A in H; first [discriminate H | clear H]
        | H : py_getitem (JObj kv) (JStr k) = Ok _ |- _ =>
            cbn in H; rewrite A in H; inversion H; subst; clear H
        end;
      match goal with
      | A : assoc k kv = Some ?w,
        H : negb (py_isinstance_int ?w) || py_lt_one ?w = false |- _ =>
          rewrite valid_max_tokens_negb in H; apply negb_false_iff, H
      | A : assoc k kv = Some ?w,
        H : negb (py_isinstance_num ?w) || negb (py_between_0_1 ?w) = false |- _ =>
          rewrite valid_unit_negb in H; apply negb_false_iff, H
      end
  end.

(** Whatever [validate_request] accepts as a generation request is a
    [POST] whose body is a [str] decoding to a [dict] with a truthy
    ["prompt"] and well-formed optional fields; that [dict] is the one
    handed on, with the message "Valid request". *)
Theorem validate_success_sound (ev : event) (m : string) (b : json) :
  validate_request ev = (true, m, Some b) ->
  m = "Valid request" /\ ev_get ev "httpMethod" = JStr "POST" /\
  exists s kv, assoc "body" ev = Some (JStr s) /\ json_loads s = Some b /\ b = JObj kv /\
    (exists p, assoc "prompt" kv = Some p /\ truthy p = true) /\
    field_ok kv "max_tokens" valid_max_tokens = true /\
    field_ok kv "temperature" valid_unit = true /\
    field_ok kv "top_p" valid_unit = true.
Proof.
  unfold validate_request. intro H.
  destruct (validate_try ev) as [r|e] eqn:Ev; [subst r | destruct e; discriminate].
  unfold validate_try, bind, ret in Ev.
  split_matches Ev; inversion Ev; subst.
  all: match goal with
       | Hg : py_getitem _ (JStr "prompt") = Ok _ |- _ =>
           destruct (py_getitem_str_ok _ _ _ Hg) as [kv [-> Hp]]
       end.
  all: split; [reflexivity | split; [apply py_eq_str_true, negb_false_iff; assumption |]].
  all: match goal with
       | H : py_json_loads ?j = Ok _ |- _ =>
           destruct j as [| | | | s | |]; cbn in H; try discriminate H;
           destruct (json_loads s) eqn:L; inversion H; subst
       end.
  all: exists s, kv; split; [reflexivity | split; [assumption | split; [reflexivity |]]].
  all: split; [eexists; split; [eassumption | apply negb_false_iff; assumption] |].
  all: repeat split; field_sound.
Qed.

(** ** The remote call and its answer *)

Lemma py_getitem_head (x : json) (rest : list json) :
  py_getitem (JList (x :: rest)) (JInt 0) = Ok x.
Proof.
  unfold py_getitem, py_norm_index. cbn [py_index_of].
  replace (0 <? Z.of_nat (length (x :: rest))) with true
    by (symmetry; apply Z.ltb_lt; cbn [length]; lia).
  reflexivity.
Qed.

(** Runs [invoke_bedrock_model] through every outcome of its steps and
    closes each with [tac]. *)
Ltac invoke_cases tac :=
  unfold invoke_bedrock_model, py_try, invoke_try, pbind, invoke_model, lift, pret;
  cbv zeta;
  destruct (bedrock_invoke _ _) as [?r|?e]; [| tac];
  destruct (py_json_loads _) as [?rb|?e]; [| tac];
  destruct (parse_content _ _) as [?c|?e]; [| tac];
  destruct (py_dict_get _ "usage" _) as [?u|?e]; [| tac];
  destruct (py_dict_get _ "RequestId" _); tac.

(** [invoke_bedrock_model] never raises, whatever the remote does, and it
    calls the remote exactly once, with the configured model id and the
    request body built from its arguments. *)
Theorem invoke_single_call (cfg : config) (prompt mt t tp : json) (log : list call) :
  exists i, invoke_bedrock_model cfg prompt mt t tp log =
    (Ok i, (log ++ [(BEDROCK_MODEL_ID cfg, outbound_body cfg prompt mt t tp)])%list).
Proof.
  unfold outbound_body. invoke_cases ltac:(eexists; reflexivity).
Qed.

(** A [ClientError] raised by the remote call is returned as it is: the
    error code and message of the service become the result's [code] and
    [message]; the one call stays in the log. *)
Theorem invoke_client_error (cfg : config) (prompt mt t tp : json) (log : list call)
  (code msg : string)
  (Hr : bedrock_invoke (BEDROCK_MODEL_ID cfg) (outbound_body cfg prompt mt t tp) =
          Exc (ClientError code msg)) :
  invoke_bedrock_model cfg prompt mt t tp log =
    (Ok (InvErr code msg),
     (log ++ [(BEDROCK_MODEL_ID cfg, outbound_body cfg prompt mt t tp)])%list).
Proof.
  unfold outbound_body in *.
  unfold invoke_bedrock_model, py_try, invoke_try, pbind, invoke_model.
  cbv zeta. rewrite Hr. reflexivity.
Qed.

(** With a model id containing "anthropic", the content of an answer
    decoded to a dict is [response_body['content'][0]['text']], the usage
    its ["usage"] or [{}]. *)
Theorem anthropic_content_extraction (cfg : config) (prompt mt t tp : json)
  (log : list call) (r : remote_response) (kv ckv : list (string * json))
  (rest : list json) (c : json)
  (Ha : str_contains "anthropic" (BEDROCK_MODEL_ID cfg) = true)
  (Hr : bedrock_invoke (BEDROCK_MODEL_ID cfg) (outbound_body cfg prompt mt t tp) = Ok r)
  (Hb : json_loads (resp_body r) = Some (JObj kv))
  (Hc : assoc "content" kv = Some (JList (JObj ckv :: rest)))
  (Hx : assoc "text" ckv = Some c)
  (Hmd : forall md, resp_metadata r = Some md -> exists mkv, md = JObj mkv) :
  exists request_id,
    invoke_bedrock_model cfg prompt mt t tp log =
      (Ok (InvOk c (BEDROCK_MODEL_ID cfg)
                 (match assoc "usage" kv with Some u => u | None => JObj [] end)
                 request_id),
       (log ++ [(BEDROCK_MODEL_ID cfg, outbound_body cfg prompt mt t tp)])%list).
Proof.
  unfold outbound_body in *.
  unfold invoke_bedrock_model, py_try, invoke_try, pbind, invoke_model, lift, pret.
  cbv zeta. rewrite Hr.
  unfold py_json_loads. rewrite Hb.
  unfold parse_content. rewrite Ha. cbn [py_getitem bind].
  rewrite Hc. cbn [bind]. rewrite py_getitem_head. cbn [bind py_getitem]. rewrite Hx.
  destruct (resp_metadata r) as [md|] eqn:Em.
  - destruct (Hmd md eq_refl) as [mkv ->]. eexists. reflexivity.
  - eexists. reflexivity.
Qed.

(** With a model id containing "amazon.titan" but not "anthropic", the
    content of an answer decoded to a dict is
    [response_body['results'][0]['outputText']]. *)
Theorem titan_content_extraction (cfg : config) (prompt mt t tp : json)
  (log : list call) (r : remote_response) (kv rkv : list (string * json))
  (rest : list json) (c : json)
  (Ha : str_contains "anthropic" (BEDROCK_MODEL_ID cfg) = false)
  (Ht : str_contains "amazon.titan" (BEDROCK_MODEL_ID cfg) = true)
  (Hr : bedrock_invoke (BEDROCK_MODEL_ID cfg) (outbound_body cfg prompt mt t tp) = Ok r)
  (Hb : json_loads (resp_body r) = Some (JObj kv))
  (Hc : assoc "results" kv = Some (JList (JObj rkv :: rest)))
  (Hx : assoc "outputText" rkv = Some c)
  (Hmd : forall md, resp_metadata r = Some md -> exists mkv, md = JObj mkv) :
  exists request_id,
    invoke_bedrock_model cfg prompt mt t tp log =
      (Ok (InvOk c (BEDROCK_MODEL_ID cfg)
                 (match assoc "usage" kv with Some u => u | None => JObj [] end)
                 request_id),
       (log ++ [(BEDROCK_MODEL_ID cfg, outbound_body cfg prompt mt t tp)])%list).
Proof.
  unfold outbound_body in *.
  unfold invoke_bedrock_model, py_try, invoke_try, pbind, invoke_model, lift, pret.
  cbv zeta. rewrite Hr.
  unfold py_json_loads. rewrite Hb.
  unfold parse_content. rewrite Ha, Ht. cbn [py_getitem bind].
  rewrite Hc. cbn [bind]. rewrite py_getitem_head. cbn [bind py_getitem]. rewrite Hx.
  destruct (resp_metadata r) as [md|] eqn:Em.
  - destruct (Hmd md eq_refl) as [mkv ->]. eexists. reflexivity.
  - eexists. reflexivity.
Qed.

(** ** The handler on an accepted request *)

(** Runs [handler] on an accepted, non-preflight request up to the call
    of [invoke_bedrock_model]. *)
Ltac handler_prefix Hv Ho Hp :=
  unfold handler, py_try, handler_try; rewrite Hv; cbn [negb];
  rewrite (py_eq_str_false _ _ Ho); unfold pbind, lift;
  cbn [py_getitem py_dict_get]; rewrite Hp.

(** An accepted [POST] is passed to [invoke_bedrock_model] with
    [body['prompt']] and [body.get(...)] of the three optional fields; a
    successful invocation becomes a 200 envelope with its content, model
    id and usage (the service's request id is not copied), a failed one a
    500 envelope with its code and message; both carry the metadata. *)
Theorem handler_reports_invocation (cfg : config) (ev : event) (context : lambda_context)
  (log log' : list call) (m : string) (kv : list (string * json)) (p : json)
  (i : invocation)
  (Hv : validate_request ev = (true, m, Some (JObj kv)))
  (Ho : ev_get ev "httpMethod" <> JStr "OPTIONS")
  (Hp : assoc "prompt" kv = Some p)
  (Hi : invoke_bedrock_model cfg p (get_or_none kv "max_tokens")
          (get_or_none kv "temperature") (get_or_none kv "top_p") log = (Ok i, log')) :
  handler cfg ev context log =
    (Ok (match i with
         | InvOk content model_id usage _ =>
             create_response 200 (JObj [("success", JBool true);
                                        ("content", content);
                                        ("model_id", JStr model_id);
                                        ("usage", usage);
                                        ("metadata", metadata context)]) None
         | InvErr code msg =>
             create_response 500 (JObj [("success", JBool false);
                                        ("error", JObj [("code", JStr code);
                                                        ("message", JStr msg)]);
                                        ("metadata", metadata context)]) None
         end), log').
Proof.
  handler_prefix Hv Ho Hp.
  unfold get_or_none in Hi. rewrite Hi.
  destruct i; reflexivity.
Qed.

(** End to end: an accepted [POST] whose remote call raises a
    [ClientError] is answered 500 with the service's error code and
    message, after exactly one call. *)
Theorem handler_client_error (cfg : config) (ev : event) (context : lambda_context)
  (log : list call) (m : string) (kv : list (string * json)) (p : json)
  (code msg : string)
  (Hv : validate_request ev = (true, m, Some (JObj kv)))
  (Ho : ev_get ev "httpMethod" <> JStr "OPTIONS")
  (Hp : assoc "prompt" kv = Some p)
  (Hr : bedrock_invoke (BEDROCK_MODEL_ID cfg)
          (outbound_body cfg p (get_or_none kv "max_tokens")
             (get_or_none kv "temperature") (get_or_none kv "top_p")) =
        Exc (ClientError code msg)) :
  handler cfg ev context log =
    (Ok (create_response 500 (JObj [("success", JBool false);
                                    ("error", JObj [("code", JStr code);
                                                    ("message", JStr msg)]);
                                    ("metadata", metadata context)]) None),
     (log ++ [(BEDROCK_MODEL_ID cfg,
               outbound_body cfg p (get_or_none kv "max_tokens")
                 (get_or_none kv "temperature") (get_or_none kv "top_p"))])%list).
Proof.
  handler_prefix Hv Ho Hp.
  unfold outbound_body, get_or_none in Hr |- *.
  unfold invoke_bedrock_model, py_try, invoke_try, pbind, invoke_model.
  cbv zeta. rewrite Hr. reflexivity.
Qed.

End Program.

(** ** Evaluations at concrete inputs *)

(** C5 at a preflight request. *)
Lemma handler_options_short_circuit_witness :
  ev_get [("httpMethod", JStr "OPTIONS")] "httpMethod" = JStr "OPTIONS" /\
  exists env,
    handler sample_json_loads sample_repr remote_anthropic (Fin 0) 0 default_config
      [("httpMethod", JStr "OPTIONS")] None [] = (Ok env, []) /\
    statusCode env = 200 /\
    body env = JObj [("message", JStr "CORS preflight successful"); ("timestamp", JInt 0)].
Proof.
  split; [reflexivity |].
  apply (handler_options_short_circuit sample_json_loads sample_repr remote_anthropic
           (Fin 0) 0 default_config [("httpMethod", JStr "OPTIONS")] None []).
  reflexivity.
Defined.

(** C6 at a [GET]. *)
Lemma handler_rejects_other_methods_witness :
  ev_get [("httpMethod", JStr "GET")] "httpMethod" <> JStr "POST" /\
  ev_get [("httpMethod", JStr "GET")] "httpMethod" <> JStr "OPTIONS" /\
  validate_request sample_json_loads [("httpMethod", JStr "GET")] =
    (false, "Only POST method is supported", None).
Proof.
  assert (H1 : ev_get [("httpMethod", JStr "GET")] "httpMethod" <> JStr "POST")
    by discriminate.
  assert (H2 : ev_get [("httpMethod", JStr "GET")] "httpMethod" <> JStr "OPTIONS")
    by discriminate.
  split; [exact H1 | split; [exact H2 |]].
  exact (proj1 (handler_rejects_other_methods sample_json_loads sample_repr remote_anthropic
                  (Fin 0) 0 default_config [("httpMethod", JStr "GET")] None [] H1 H2)).
Defined.

(** C10 at the body [["prompt"]]. *)
Lemma handler_nonobject_body_witness :
  sample_json_loads ("[" ++ quoted "prompt" ++ "]") = Some (JList [JStr "prompt"]) /\
  validate_request sample_json_loads (post_event ("[" ++ quoted "prompt" ++ "]")) =
    (false, "Internal validation error", None).
Proof.
  assert (Hl : sample_json_loads ("[" ++ quoted "prompt" ++ "]") = Some (JList [JStr "prompt"]))
    by reflexivity.
  split; [exact Hl |].
  destruct (handler_nonobject_body sample_json_loads sample_repr remote_anthropic
              (Fin 0) 0 default_config (post_event ("[" ++ quoted "prompt" ++ "]")) None []
              ("[" ++ quoted "prompt" ++ "]") (JList [JStr "prompt"])
              eq_refl eq_refl ltac:(discriminate) Hl ltac:(intros kv; discriminate))
    as [[Hv | Hv] _].
  - vm_compute in Hv. discriminate Hv.
  - exact Hv.
Defined.

(** C3 at the body [{"prompt": ""}]. *)
Lemma validate_prompt_required_witness :
  sample_json_loads empty_prompt_text = Some (JObj [("prompt", JStr EmptyString)]) /\
  validate_request sample_json_loads (post_event empty_prompt_text) =
    (false, "Prompt is required in request body", None).
Proof.
  assert (Hl : sample_json_loads empty_prompt_text = Some (JObj [("prompt", JStr EmptyString)]))
    by reflexivity.
  split; [exact Hl |].
  exact (proj1 (proj1 (validate_prompt_required sample_json_loads sample_repr remote_anthropic
                         (Fin 0) 0 default_config (post_event empty_prompt_text) None []
                         empty_prompt_text [("prompt", JStr EmptyString)]
                         eq_refl eq_refl ltac:(discriminate) Hl) eq_refl)).
Defined.

(** C3 fails as stated: the message for a missing prompt is not
    "Prompt is required". *)
Lemma prompt_message_differs :
  validate_request sample_json_loads (post_event "{}") =
    (false, "Prompt is required in request body", None) /\
  validate_request sample_json_loads (post_event "{}") <> (false, "Prompt is required", None).
Proof.
  split; [reflexivity |].
  vm_compute. discriminate.
Defined.

(** C8 at the scenario of the spec: model "some.other.model" and the
    answer [{"text": "fallback reply"}]. *)
Lemma generic_content_extraction_witness :
  exists request_id,
    fst (invoke_bedrock_model sample_json_loads sample_repr remote_fallback generic_config
           (JStr "hi") JNull JNull JNull []) =
      Ok (InvOk (JStr "fallback reply") "some.other.model" (JObj []) request_id).
Proof.
  destruct (generic_content_extraction sample_json_loads sample_repr remote_fallback
              generic_config (JStr "hi") JNull JNull JNull [] _ [("text", JStr "fallback reply")]
              eq_refl eq_refl eq_refl eq_refl
              ltac:(intros md Hmd; inversion Hmd; eexists; reflexivity))
    as [request_id H].
  exists request_id. rewrite H. reflexivity.
Defined.

(** C2 (as amended) at an unreachable endpoint. *)
Lemma invoke_nonclient_failures_witness :
  fst (invoke_bedrock_model sample_json_loads sample_repr remote_unreachable default_config
         (JStr "hi") JNull JNull JNull []) = Ok (InvErr "BotoCoreError" endpoint_message).
Proof.
  rewrite (proj1 (invoke_nonclient_failures sample_json_loads sample_repr remote_unreachable
                    default_config (JStr "hi") JNull JNull JNull []) endpoint_message eq_refl).
  reflexivity.
Defined.

(** C2 fails as stated: a network failure is reported with code
    "BotoCoreError" and the exception's own text, not the generic code
    and message. *)
Lemma invoke_botocore_message_leaks :
  fst (invoke_bedrock_model sample_json_loads sample_repr remote_unreachable default_config
         (JStr "hi") JNull JNull JNull []) = Ok (InvErr "BotoCoreError" endpoint_message) /\
  fst (invoke_bedrock_model sample_json_loads sample_repr remote_unreachable default_config
         (JStr "hi") JNull JNull JNull []) <>
    Ok (InvErr "InternalError" "An unexpected error occurred").
Proof.
  split; [reflexivity |].
  vm_compute. discriminate.
Defined.

(** The properties beyond the claims, at concrete inputs. *)

Lemma validate_invalid_json_witness :
  more_json_loads "{" = None /\
  handler more_json_loads sample_repr remote_anthropic (Fin 0) 0 default_config
    (post_event "{") None [] =
    (Ok (create_response 400 (JObj [("error", JBool true);
                                    ("message", JStr "Invalid JSON in request body");
                                    ("timestamp", JInt 0)]) None), []).
Proof.
  assert (Hl : more_json_loads "{" = None) by reflexivity.
  split; [exact Hl |].
  exact (proj2 (validate_invalid_json more_json_loads sample_repr remote_anthropic (Fin 0) 0
                  default_config (post_event "{") None [] "{"
                  eq_refl eq_refl ltac:(discriminate) Hl)).
Defined.

Lemma validate_body_required_witness :
  handler more_json_loads sample_repr remote_anthropic (Fin 0) 0 default_config
    [("httpMethod", JStr "POST")] None [] =
    (Ok (create_response 400 (JObj [("error", JBool true);
                                    ("message", JStr "Request body is required");
                                    ("timestamp", JInt 0)]) None), []).
Proof.
  exact (proj2 (validate_body_required more_json_loads sample_repr remote_anthropic (Fin 0) 0
                  default_config [("httpMethod", JStr "POST")] None [] eq_refl I)).
Defined.

Lemma validate_non_string_body_witness :
  validate_request more_json_loads [("httpMethod", JStr "POST"); ("body", JInt 5)] =
    (false, "Internal validation error", None).
Proof.
  exact (validate_non_string_body more_json_loads
           [("httpMethod", JStr "POST"); ("body", JInt 5)] (JInt 5)
           eq_refl eq_refl eq_refl ltac:(intros s; discriminate)).
Defined.

Lemma validate_accepts_valid_witness :
  more_json_loads hi_text = Some (JObj [("prompt", JStr "hi")]) /\
  validate_request more_json_loads (post_event hi_text) =
    (true, "Valid request", Some (JObj [("prompt", JStr "hi")])).
Proof.
  assert (Hl : more_json_loads hi_text = Some (JObj [("prompt", JStr "hi")])) by reflexivity.
  split; [exact Hl |].
  exact (validate_accepts_valid more_json_loads (post_event hi_text) hi_text
           [("prompt", JStr "hi")] (JStr "hi")
           eq_refl eq_refl ltac:(discriminate) Hl eq_refl eq_refl eq_refl eq_refl eq_refl).
Defined.

Lemma validate_max_tokens_invalid_witness :
  validate_request more_json_loads (post_event max_tokens_zero_text) =
    (false, "max_tokens must be a positive integer", None).
Proof.
  exact (validate_max_tokens_invalid more_json_loads (post_event max_tokens_zero_text)
           max_tokens_zero_text [("prompt", JStr "hi"); ("max_tokens", JInt 0)]
           (JStr "hi") (JInt 0)
           eq_refl eq_refl ltac:(discriminate) eq_refl eq_refl eq_refl eq_refl eq_refl).
Defined.

Lemma validate_temperature_invalid_witness :
  validate_request more_json_loads (post_event temperature_high_text) =
    (false, "temperature must be a number between 0 and 1", None).
Proof.
  exact (validate_temperature_invalid more_json_loads (post_event temperature_high_text)
           temperature_high_text
           [("prompt", JStr "hi"); ("temperature", JFloat (Fin (3 # 2)))]
           (JStr "hi") (JFloat (Fin (3 # 2)))
           eq_refl eq_refl ltac:(discriminate) eq_refl eq_refl eq_refl eq_refl eq_refl eq_refl).
Defined.

Lemma validate_top_p_invalid_witness :
  validate_request more_json_loads (post_event top_p_word_text) =
    (false, "top_p must be a number between 0 and 1", None).
Proof.
  exact (validate_top_p_invalid more_json_loads (post_event top_p_word_text)
           top_p_word_text [("prompt", JStr "hi"); ("top_p", JStr "high")]
           (JStr "hi") (JStr "high")
           eq_refl eq_refl ltac:(discriminate) eq_refl eq_refl eq_refl eq_refl eq_refl
           eq_refl eq_refl).
Defined.

Lemma validate_success_sound_witness :
  validate_request more_json_loads (post_event hi_text) =
    (true, "Valid request", Some (JObj [("prompt", JStr "hi")])) /\
  ev_get (post_event hi_text) "httpMethod" = JStr "POST".
Proof.
  assert (Hv : validate_request more_json_loads (post_event hi_text) =
                 (true, "Valid request", Some (JObj [("prompt", JStr "hi")])))
    by reflexivity.
  split; [exact Hv |].
  exact (proj1 (proj2 (validate_success_sound more_json_loads (post_event hi_text)
                         "Valid request" (JObj [("prompt", JStr "hi")]) Hv))).
Defined.

Lemma invoke_client_error_witness :
  fst (invoke_bedrock_model more_json_loads sample_repr remote_throttled default_config
         (JStr "hi") JNull JNull JNull []) =
    Ok (InvErr "ThrottlingException" "Rate exceeded").
Proof.
  rewrite (invoke_client_error more_json_loads sample_repr remote_throttled default_config
             (JStr "hi") JNull JNull JNull [] "ThrottlingException" "Rate exceeded" eq_refl).
  reflexivity.
Defined.

Lemma anthropic_content_extraction_witness :
  exists request_id,
    fst (invoke_bedrock_model more_json_loads sample_repr remote_anthropic default_config
           (JStr "hi") JNull JNull JNull []) =
      Ok (InvOk (JStr "hello") anthropic_model (JObj []) request_id).
Proof.
  destruct (anthropic_content_extraction more_json_loads sample_repr remote_anthropic
              default_config (JStr "hi") JNull JNull JNull [] _
              [("content", JList [JObj [("text", JStr "hello")]])] [("text", JStr "hello")]
              [] (JStr "hello") eq_refl eq_refl eq_refl eq_refl eq_refl
              ltac:(intros md Hmd; inversion Hmd; eexists; reflexivity))
    as [request_id H].
  exists request_id. rewrite H. reflexivity.
Defined.

Lemma titan_content_extraction_witness :
  exists request_id,
    fst (invoke_bedrock_model more_json_loads sample_repr remote_titan titan_config
           (JStr "hi") JNull JNull JNull []) =
      Ok (InvOk (JStr "hello") "amazon.titan-text-express-v1" (JObj []) request_id).
Proof.
  destruct (titan_content_extraction more_json_loads sample_repr remote_titan
              titan_config (JStr "hi") JNull JNull JNull [] _
              [("results", JList [JObj [("outputText", JStr "hello")]])]
              [("outputText", JStr "hello")]
              [] (JStr "hello") eq_refl eq_refl eq_refl eq_refl eq_refl eq_refl
              ltac:(intros md Hmd; inversion Hmd; eexists; reflexivity))
    as [request_id H].
  exists request_id. rewrite H. reflexivity.
Defined.

Lemma handler_reports_invocation_witness :
  fst (handler more_json_loads sample_repr remote_anthropic (Fin 0) 0 default_config
         (post_event hi_text) (Some "ctx-1") []) =
    Ok (create_response 200 (JObj [("success", JBool true);
                                   ("content", JStr "hello");
                                   ("model_id", JStr anthropic_model);
                                   ("usage", JObj []);
                                   ("metadata", JObj [("execution_time_ms", JFloat (Fin 0));
                                                      ("timestamp", JInt 0);
                                                      ("request_id", JStr "ctx-1")])]) None).
Proof.
  rewrite (handler_reports_invocation more_json_loads sample_repr remote_anthropic (Fin 0) 0
             default_config (post_event hi_text) (Some "ctx-1") []
             [(anthropic_model, outbound_body default_config (JStr "hi") JNull JNull JNull)]
             "Valid request" [("prompt", JStr "hi")] (JStr "hi")
             (InvOk (JStr "hello") anthropic_model (JObj []) (JStr "req-1"))
             eq_refl ltac:(discriminate) eq_refl eq_refl).
  reflexivity.
Defined.

Lemma handler_client_error_witness :
  fst (handler more_json_loads sample_repr remote_throttled (Fin 0) 0 default_config
         (post_event hi_text) None []) =
    Ok (create_response 500 (JObj [("success", JBool false);
                                   ("error", JObj [("code", JStr "ThrottlingException");
                                                   ("message", JStr "Rate exceeded")]);
                                   ("metadata", JObj [("execution_time_ms", JFloat (Fin 0));
                                                      ("timestamp", JInt 0);
                                                      ("request_id", JNull)])]) None).
Proof.
  rewrite (handler_client_error more_json_loads sample_repr remote_throttled (Fin 0) 0
             default_config (post_event hi_text) None [] "Valid request"
             [("prompt", JStr "hi")] (JStr "hi") "ThrottlingException" "Rate exceeded"
             eq_refl ltac:(discriminate) eq_refl eq_refl).
  reflexivity.
Defined.

(** C1: a [POST] with [{"prompt": "hi", "temperature": 0.0}] passes
    validation, yet the request body sent to the model carries the
    configured default [0.7] instead of the supplied [0.0]. *)
Theorem temperature_zero_replaced_by_default (py_repr : json -> string)
  (execution_time_ms : pyfloat) (now : Z) (context : lambda_context) :
  validate_request sample_json_loads (post_event temperature_zero_text) =
    (true, "Valid request", Some (JObj [("prompt", JStr "hi"); ("temperature", JFloat (Fin 0))])) /\
  snd (handler sample_json_loads py_repr remote_anthropic execution_time_ms now default_config
         (post_event temperature_zero_text) context []) =
    [("anthropic.claude-3-sonnet-20240229-v1:0",
      JObj [("anthropic_version", JStr "bedrock-2023-05-31");
            ("max_tokens", JInt 1000);
            ("temperature", JFloat (Fin (3152519739159347 # 4503599627370496)));
            ("top_p", JFloat (Fin (8106479329266893 # 9007199254740992)));
            ("messages", JList [JObj [("role", JStr "user"); ("content", JStr "hi")]])])].
Proof. split; reflexivity. Qed.

(** C4: a [POST] with [{"prompt": "hi", "max_tokens": true}] passes
    validation ([bool] is a subclass of [int] and [True < 1] is false),
    the model is called with [max_tokens: true] and the answer is 200. *)
Theorem max_tokens_true_accepted (py_repr : json -> string)
  (execution_time_ms : pyfloat) (now : Z) (context : lambda_context) :
  validate_request sample_json_loads (post_event max_tokens_true_text) =
    (true, "Valid request", Some (JObj [("prompt", JStr "hi"); ("max_tokens", JBool true)])) /\
  exists env,
    handler sample_json_loads py_repr remote_anthropic execution_time_ms now default_config
      (post_event max_tokens_true_text) context [] =
      (Ok env,
       [("anthropic.claude-3-sonnet-20240229-v1:0",
         JObj [("anthropic_version", JStr "bedrock-2023-05-31");
               ("max_tokens", JBool true);
               ("temperature", JFloat (Fin (3152519739159347 # 4503599627370496)));
               ("top_p", JFloat (Fin (8106479329266893 # 9007199254740992)));
               ("messages", JList [JObj [("role", JStr "user"); ("content", JStr "hi")]])])]) /\
    statusCode env = 200.
Proof. split; [reflexivity | eexists; split; reflexivity]. Qed.
